(** * mcp-demo: the CSV-to-Parquet converter and the tool-host entry point

    The repository has two module-level Python scripts:

    - [src/generate_parquet.py]: [pd.read_csv], [df.to_parquet(..., index=False)],
      [print];
    - [src/main.py]: three import statements and a guarded [mcp.run()].

    Both are embedded as computations in a state-and-exception monad.  What the
    scripts call but do not define (pandas and its Parquet engine, the Python
    import system, the server object) is an interface: a type class whose
    operations the theorems quantify over.  Small executable instances of those
    interfaces are given at the end of each part, so that every statement can be
    evaluated on concrete inputs. *)

From Stdlib Require Import ZArith List String Ascii DecimalString.
From Stdlib.Strings Require Import Byte.
From stdpp Require Import base gmap strings list.

(** ** Python: exceptions and module-level execution *)

Module Py.

(** The exception classes the scripts can meet.  [OtherError] carries the
    class name of anything else a library raises. *)
Inductive exn_class :=
  | FileNotFoundError
  | PermissionError
  | IsADirectoryError
  | NotADirectoryError
  | OSError
  | UnicodeEncodeError
  | ParserError
  | EmptyDataError
  | ArrowInvalid
  | ModuleNotFoundError
  | ImportError
  | OtherError (name : string).

Record exn := MkExn { exn_cls : exn_class; exn_msg : string }.

(** [issubclass]: the part of Python's hierarchy the error taxonomy uses. *)
Definition subclass (c d : exn_class) : bool :=
  match c, d with
  | FileNotFoundError, (FileNotFoundError | OSError) => true
  | PermissionError, (PermissionError | OSError) => true
  | IsADirectoryError, (IsADirectoryError | OSError) => true
  | NotADirectoryError, (NotADirectoryError | OSError) => true
  | OSError, OSError => true
  | UnicodeEncodeError, UnicodeEncodeError => true
  | ParserError, ParserError => true
  | EmptyDataError, EmptyDataError => true
  | ArrowInvalid, ArrowInvalid => true
  | ModuleNotFoundError, (ModuleNotFoundError | ImportError) => true
  | ImportError, ImportError => true
  | OtherError a, OtherError b => String.eqb a b
  | _, _ => false
  end.

(** How a statement ends: normally with a value, or with a raised exception. *)
Inductive outcome (A : Type) :=
  | Returned (a : A)
  | Raised (e : exn).
Arguments Returned {A} a.
Arguments Raised {A} e.

(** A statement run against a state [S].  Effects made before a raise stay. *)
Definition M (S A : Type) : Type := S -> outcome A * S.

Definition ret {S A} (a : A) : M S A := fun s => (Returned a, s).

Definition raise {S A} (e : exn) : M S A := fun s => (Raised e, s).

(** Sequencing of statements: there is no handler, so a raise skips the rest. *)
Definition bind {S A B} (m : M S A) (k : A -> M S B) : M S B :=
  fun s =>
    match m s with
    | (Returned a, s') => k a s'
    | (Raised e, s') => (Raised e, s')
    end.

(** A pure library call that may raise. *)
Definition lift {S A} (r : outcome A) : M S A := fun s => (r, s).

Definition modify {S} (f : S -> S) : M S unit := fun s => (Returned tt, f s).

Definition get {S} : M S S := fun s => (Returned s, s).

End Py.

Import Py.

Declare Scope py_scope.
Delimit Scope py_scope with py.
Notation "x <- m ;; k" := (bind m (fun x => k))
  (at level 100, m at next level, right associativity) : py_scope.
Notation "m ;;; k" := (bind m (fun _ => k))
  (at level 100, right associativity) : py_scope.
Local Open Scope py_scope.

(** The line terminator [print] appends. *)
Definition newline : string := String (ascii_of_nat 10) "".

(** ** The converter: [src/generate_parquet.py] *)

Module Converter.

(** *** Data: frames, columnar tables, the file system *)

(** A scalar of the tabular dataset: null, boolean, number or string.  A float
    is kept as its binary64 bit pattern, so cells compare bit for bit. *)
Inductive Cell :=
  | CNull
  | CBool (b : bool)
  | CInt (z : Z)
  | CFloat (bits : Z)
  | CStr (s : string).

(** The dataset [read_csv] returns: the header's names and the data rows, in
    file order.  Its row labels are the default range 0, 1, ..., N-1. *)
Record DataFrame := MkFrame {
  df_columns : list string;
  df_rows : list (list Cell)
}.

(** What a columnar file holds: named columns and the row count. *)
Record Table := MkTable {
  schema : list string;
  num_rows : nat;
  columns : list (list Cell)
}.

(** Every row has one cell per column. *)
Definition rectangular (df : DataFrame) : Prop :=
  Forall (fun r : list Cell => length r = length (df_columns df)) (df_rows df).

Definition rectangularb (df : DataFrame) : bool :=
  forallb (fun r : list Cell => Nat.eqb (length r) (length (df_columns df))) (df_rows df).

Definition cell_at (i : nat) (l : list Cell) : Cell := nth i l CNull.

Definition column_of (rows : list (list Cell)) (j : nat) : list Cell :=
  map (cell_at j) rows.


Definition range_index (n : nat) : list Cell :=
  map (fun i => CInt (Z.of_nat i)) (seq 0 n).

(** The name the Parquet engine gives a row-label column it stores. *)
Definition index_column : string := "__index_level_0__".

(** [Table.from_pandas(df, preserve_index=...)]: the frame column by column;
    the row labels become one more column only when [preserve_index] is set. *)
Definition from_pandas (df : DataFrame) (preserve_index : bool) : Table :=
  let n := length (df_rows df) in
  let data := map (column_of (df_rows df)) (seq 0 (length (df_columns df))) in
  if preserve_index
  then MkTable (df_columns df ++ [index_column]) n (data ++ [range_index n])
  else MkTable (df_columns df) n data.


Inductive mode := ReadMode | WriteMode.

(** An attempt to open a path, made whether or not it succeeds. *)
Record syscall := Open { sc_path : string; sc_mode : mode }.

(** The reasons the operating system gives for a failed open or write. *)
Inductive errno :=
  | EPERM
  | ENOENT
  | EIO
  | EACCES
  | ENOTDIR
  | EISDIR
  | ENOSPC
  | EROFS.

#[export] Instance errno_eq_dec : EqDecision errno.
Proof. solve_decision. Defined.

(** The exception class Python raises for each of them: only [EACCES] and
    [EPERM] give a [PermissionError]. *)
Definition errno_class (c : errno) : exn_class :=
  match c with
  | EPERM | EACCES => PermissionError
  | ENOENT => FileNotFoundError
  | ENOTDIR => NotADirectoryError
  | EISDIR => IsADirectoryError
  | EIO | ENOSPC | EROFS => OSError
  end.

Definition strerror (c : errno) : string :=
  match c with
  | EPERM => "[Errno 1] Operation not permitted"
  | ENOENT => "[Errno 2] No such file or directory"
  | EIO => "[Errno 5] Input/output error"
  | EACCES => "[Errno 13] Permission denied"
  | ENOTDIR => "[Errno 20] Not a directory"
  | EISDIR => "[Errno 21] Is a directory"
  | ENOSPC => "[Errno 28] No space left on device"
  | EROFS => "[Errno 30] Read-only file system"
  end.

(** [repr] of a path without quotes or control characters: quoted, each
    backslash doubled. *)
Fixpoint escape (s : string) : string :=
  match s with
  | EmptyString => EmptyString
  | String c rest =>
      if Ascii.eqb c (ascii_of_nat 92)
      then String c (String c (escape rest))
      else String c (escape rest)
  end.

Definition repr (s : string) : string := "'" +:+ escape s +:+ "'".

(** The exception of a failed open, and of a failed write to an open file. *)
Definition open_error (c : errno) (path : string) : exn :=
  MkExn (errno_class c) (strerror c +:+ ": " +:+ repr path).

Definition write_error (c : errno) : exn :=
  MkExn (errno_class c) (strerror c).

(** What the script can observe and change, and what its environment
    decides: the files by path; the paths that cannot be opened for writing,
    each with the reason; the paths on which a write fails after so many
    bytes, each with the reason; the texts the encoding of standard output
    can encode; the clock (file metadata may embed it); the text written to
    standard output; and the log of open attempts. *)
Record world := MkWorld {
  files : gmap string (list byte);
  open_faults : gmap string errno;
  write_faults : gmap string (nat * errno);
  stdout_encodes : string -> bool;
  now : nat;
  stdout : string;
  syscalls : list syscall
}.

(** The paths whose open for writing is refused for lack of permission. *)
Definition readonly (w : world) : gset string :=
  dom (filter (fun kv : string * errno => kv.2 = EACCES) (open_faults w)).

Definition log_open (c : syscall) (w : world) : world :=
  MkWorld (files w) (open_faults w) (write_faults w) (stdout_encodes w)
          (now w) (stdout w) (syscalls w ++ [c]).

Definition store (path : string) (data : list byte) (w : world) : world :=
  MkWorld (<[path := data]> (files w)) (open_faults w) (write_faults w)
          (stdout_encodes w) (S (now w)) (stdout w) (syscalls w).

Definition emit (text : string) (w : world) : world :=
  MkWorld (files w) (open_faults w) (write_faults w) (stdout_encodes w)
          (now w) (stdout w +:+ text) (syscalls w).

(** *** The libraries the script calls *)

(** pandas and its Parquet engine, as far as the script depends on them. *)
Class Engine := {
  (** the CSV tokenizer and type inference, on a file's bytes *)
  parse_csv : list byte -> outcome DataFrame;
  (** the conversion to typed columns may reject a table *)
  arrow_error : Table -> option exn;
  (** the file's bytes for a table; the first argument is the creation time *)
  serialize : nat -> Table -> list byte;
  deserialize : list byte -> outcome Table
}.

Section Script.

Context {engine : Engine}.

Definition no_such_file (path : string) : exn := open_error ENOENT path.

Definition permission_denied (path : string) : exn := open_error EACCES path.

(** What [print] raises for a text the stream's encoding lacks a character of. *)
Definition encode_error : exn :=
  MkExn UnicodeEncodeError "codec can't encode character".

(** [open(path, "rb").read()] *)
Definition read_bytes (path : string) : M world (list byte) :=
  fun w =>
    let w' := log_open (Open path ReadMode) w in
    match files w !! path with
    | Some data => (Returned data, w')
    | None => (Raised (no_such_file path), w')
    end.

(** [open(path, "wb").write(data)].  A refused open raises and leaves the
    file as it was.  A granted open empties or creates the file; the write
    then stores the data, or fails after a number of bytes and leaves those. *)
Definition write_bytes (path : string) (data : list byte) : M world unit :=
  fun w =>
    let w' := log_open (Open path WriteMode) w in
    match open_faults w !! path with
    | Some c => (Raised (open_error c path), w')
    | None =>
        match write_faults w !! path with
        | Some (k, c) => (Raised (write_error c), store path (take k data) w')
        | None => (Returned tt, store path data w')
        end
    end.

(** [print(text)]: the text is encoded first, so a text the stream cannot
    encode raises with nothing written; otherwise the text and the line
    terminator are written. *)
Definition print (text : string) : M world unit :=
  fun w =>
    if stdout_encodes w text
    then (Returned tt, emit (text +:+ newline) w)
    else (Raised encode_error, w).

(** [pd.read_csv(path)] *)
Definition read_csv (path : string) : M world DataFrame :=
  data <- read_bytes path ;;
  lift (parse_csv data).

(** [df.to_parquet(path, index=index)] *)
Definition to_parquet (df : DataFrame) (path : string) (index : bool) : M world unit :=
  let t := from_pandas df index in
  match arrow_error t with
  | Some e => raise e
  | None =>
      w <- get ;;
      write_bytes path (serialize (now w) t)
  end.

(** Reading a columnar file back as a table. *)
Definition read_table (path : string) : M world Table :=
  data <- read_bytes path ;;
  lift (deserialize data).

(** *** The script *)

Definition input_path : string := "data\sample.csv".
Definition output_path : string := "data\sample.parquet".

Definition confirmation : string := "✅ Parquet file created successfully!".

Definition generate_parquet : M world unit :=
  df <- read_csv input_path ;;
  to_parquet df output_path false ;;;
  print confirmation.

(** The worlds a run goes through: after the input was opened, after the
    output was opened, after the table (or, on a write fault, its first [k]
    bytes) was stored, and after the line was printed. *)
Definition opened_input (w : world) : world :=
  log_open (Open input_path ReadMode) w.

Definition opened_output (w : world) : world :=
  log_open (Open output_path WriteMode) (opened_input w).

Definition cut_short (k : nat) (t : Table) (w : world) : world :=
  store output_path (take k (serialize (now w) t)) (opened_output w).

Definition written (t : Table) (w : world) : world :=
  store output_path (serialize (now w) t) (opened_output w).

Definition converted (t : Table) (w : world) : world :=
  emit (confirmation +:+ newline)
       (store output_path (serialize (now w) t) (opened_output w)).

End Script.


Fixpoint string_drop (n : nat) (s : string) : string :=
  match n, s with
  | 0, _ => s
  | S n', String _ rest => string_drop n' rest
  | S _, EmptyString => EmptyString
  end.

(** What a run wrote to standard output. *)
Definition printed (w w' : world) : string :=
  string_drop (String.length (stdout w)) (stdout w').

(** The number of lines in a text: its line terminators. *)
Fixpoint line_count (s : string) : nat :=
  match s with
  | EmptyString => 0
  | String c rest => (if Ascii.eqb c (ascii_of_nat 10) then 1 else 0) + line_count rest
  end.

(** What a run appended to the log of open attempts. *)
Definition new_syscalls (w w' : world) : list syscall :=
  drop (length (syscalls w)) (syscalls w').

Definition is_write (c : syscall) : bool :=
  match sc_mode c with
  | WriteMode => true
  | ReadMode => false
  end.

End Converter.

(** ** The tool host: [src/main.py] *)

Module ToolHost.

(** What one step of an external collaborator did: the tool names it
    registered, the text it wrote to the standard streams, and the exception
    it raised, if any.  Effects made before a raise stay. *)
Record effect := MkEffect {
  registered : list string;
  wrote_out : string;
  wrote_err : string;
  raised : option exn
}.

(** The statements of the entry point that reach a collaborator. *)
Inductive event :=
  | Import (module : string)
  | Run (tools : list string).

(** The interpreter as the entry point sees it: the server's tool registry
    (names, in registration order), both standard streams, and the log of
    the statements executed. *)
Record interp := MkInterp {
  registry : list string;
  out : string;
  err : string;
  events : list event
}.

(** The collaborators: what loading a module does (the import system, the
    module's body and its decorators) and what the server's [run] does, each
    given the registry it finds. *)
Class Collaborators := {
  load : string -> list string -> effect;
  serve : list string -> effect
}.

Definition log_event (ev : event) (s : interp) : interp :=
  MkInterp (registry s) (out s) (err s) (events s ++ [ev]).

Definition absorb (e : effect) (s : interp) : interp :=
  MkInterp (registry s ++ registered e) (out s +:+ wrote_out e)
           (err s +:+ wrote_err e) (events s).

Definition perform (e : effect) : M interp unit :=
  fun s =>
    match raised e with
    | Some x => (Raised x, absorb e s)
    | None => (Returned tt, absorb e s)
    end.

Section Script.

Context {collaborators : Collaborators}.

(** [import module] *)
Definition import_module (module : string) : M interp unit :=
  fun s => perform (load module (registry s)) (log_event (Import module) s).

(** [from module import name]: the module is loaded and the name bound; a
    missing name is an exception of the load. *)
Definition from_import (module name : string) : M interp unit :=
  import_module module.

(** [mcp.run()] *)
Definition mcp_run : M interp unit :=
  fun s => perform (serve (registry s)) (log_event (Run (registry s)) s).

(** The module body; [name] is the value of [__name__]. *)
Definition main (name : string) : M interp unit :=
  from_import "server" "mcp" ;;;
  import_module "tools.csv_tools" ;;;
  import_module "tools.parquet_tools" ;;;
  if String.eqb name "__main__" then mcp_run else ret tt.

End Script.

(** The three import statements alone, to speak of the state in which the
    guard is reached. *)
Definition imports `{Collaborators} : M interp unit :=
  from_import "server" "mcp" ;;;
  import_module "tools.csv_tools" ;;;
  import_module "tools.parquet_tools".

(** What a run appended to the log. *)
Definition new_events (s s' : interp) : list event :=
  drop (length (events s)) (events s').

Definition is_run (ev : event) : bool :=
  match ev with
  | Run _ => true
  | Import _ => false
  end.

(** An effect comes from a collaborator: a module load or the server's run. *)
Definition external `{Collaborators} (e : effect) : Prop :=
  (exists module reg, e = load module reg) \/ (exists reg, e = serve reg).

(** The collaborator's answer to one logged statement, in registry [reg]. *)
Definition answer `{Collaborators} (reg : list string) (ev : event) : effect :=
  match ev with
  | Import module => load module reg
  | Run _ => serve reg
  end.

(** The collaborators' effects behind a log that started in registry [reg]. *)
Fixpoint replay `{Collaborators} (reg : list string) (evs : list event) : list effect :=
  match evs with
  | [] => []
  | ev :: rest =>
      let e := answer reg ev in
      e :: replay (reg ++ registered e) rest
  end.

Definition text_of (chunks : list string) : string :=
  fold_right String.append "" chunks.

(** Between [s] and [s'] the log only grew, and the registry and both streams
    grew by exactly what the collaborators behind the new log entries did. *)
Definition accounted `{Collaborators} (s s' : interp) : Prop :=
  exists evs : list event,
    events s' = events s ++ evs /\
    registry s' = registry s ++ concat (map registered (replay (registry s) evs)) /\
    out s' = out s +:+ text_of (map wrote_out (replay (registry s) evs)) /\
    err s' = err s +:+ text_of (map wrote_err (replay (registry s) evs)).

Definition tool_modules : list string :=
  ["server"; "tools.csv_tools"; "tools.parquet_tools"].

End ToolHost.

(** ** A small engine to evaluate the converter with *)

Module Sample.

Import Converter.

(** Splitting on a separator: [split_on "," "a,b"] is ["a"; "b"]. *)
Fixpoint split_on (sep : ascii) (s : string) : list string :=
  match s with
  | EmptyString => [EmptyString]
  | String c rest =>
      if Ascii.eqb c sep then EmptyString :: split_on sep rest
      else match split_on sep rest with
           | [] => [String c EmptyString]
           | h :: t => String c h :: t
           end
  end.

Definition lines (s : string) : list string :=
  filter (fun l => l <> EmptyString) (split_on (ascii_of_nat 10) s).

Definition join_lines (ls : list string) : string :=
  fold_right (fun l acc => l +:+ newline +:+ acc) EmptyString ls.

Definition dec (z : Z) : string := NilEmpty.string_of_int (Z.to_int z).

Definition undec (s : string) : option Z := Z.of_int <$> NilEmpty.int_of_string s.

(** Type inference, cell by cell: empty is null, then booleans, integers,
    and text for the rest. *)
Definition infer (field : string) : Cell :=
  if String.eqb field "" then CNull
  else if String.eqb field "True" then CBool true
  else if String.eqb field "False" then CBool false
  else match undec field with
       | Some z => CInt z
       | None => CStr field
       end.

(** A short row is padded with nulls; a long one is a tokenizing error. *)
Fixpoint pad (m : nat) (r : list Cell) : option (list Cell) :=
  match m, r with
  | 0, [] => Some []
  | 0, _ :: _ => None
  | S m', [] => (fun t => CNull :: t) <$> pad m' []
  | S m', c :: r' => (fun t => c :: t) <$> pad m' r'
  end.

(** A header field left empty is named after its position: [Unnamed: 0]
    for the first column, as [read_csv] does. *)
Fixpoint name_columns (i : nat) (fields : list string) : list string :=
  match fields with
  | [] => []
  | f :: rest =>
      (if String.eqb f "" then "Unnamed: " +:+ dec (Z.of_nat i) else f)
      :: name_columns (S i) rest
  end.

Definition csv_frame (text : string) : outcome DataFrame :=
  match lines text with
  | [] => Raised (MkExn EmptyDataError "No columns to parse from file")
  | header :: data =>
      let names := name_columns 0 (split_on "," header) in
      match mapM (fun l => pad (length names) (map infer (split_on "," l))) data with
      | Some rows => Returned (MkFrame names rows)
      | None => Raised (MkExn ParserError "Error tokenizing data")
      end
  end.

Definition encode_cell (c : Cell) : string :=
  match c with
  | CNull => "n"
  | CBool true => "t"
  | CBool false => "f"
  | CInt z => "i" +:+ dec z
  | CFloat bits => "d" +:+ dec bits
  | CStr s => "s" +:+ s
  end.

Definition decode_cell (s : string) : option Cell :=
  match s with
  | String "n" "" => Some CNull
  | String "t" "" => Some (CBool true)
  | String "f" "" => Some (CBool false)
  | String "i" d => CInt <$> undec d
  | String "d" d => CFloat <$> undec d
  | String "s" t => Some (CStr t)
  | _ => None
  end.

Fixpoint chunks (m n : nat) (l : list string) : list (list string) :=
  match m with
  | 0 => []
  | S m' => take n l :: chunks m' n (drop n l)
  end.

Definition magic : string := "PAR1".

(** The container: magic, creation time, row count, column count, the column
    names, the cells column after column, magic. *)
Definition table_text (created : nat) (t : Table) : string :=
  join_lines
    ([magic; dec (Z.of_nat created); dec (Z.of_nat (num_rows t));
      dec (Z.of_nat (length (schema t)))]
     ++ schema t ++ concat (map (map encode_cell) (columns t)) ++ [magic]).

Definition text_table (text : string) : option Table :=
  match lines text with
  | m0 :: _ :: n :: m :: rest =>
      if String.eqb m0 magic then
        n ← Z.to_nat <$> undec n;
        m ← Z.to_nat <$> undec m;
        let names := take m rest in
        let body := drop m rest in
        cols ← mapM (mapM decode_cell) (chunks m n body);
        if decide (drop (m * n) body = [magic] /\ length names = m)
        then Some (MkTable names n cols) else None
      else None
  | _ => None
  end.

(** All cells of a column must have one type (nulls apart). *)
Definition same_kind (a b : Cell) : bool :=
  match a, b with
  | CNull, _ | _, CNull => true
  | CBool _, CBool _ | CInt _, CInt _ | CFloat _, CFloat _ | CStr _, CStr _ => true
  | _, _ => false
  end.

Definition typed_column (col : list Cell) : bool :=
  forallb (fun a => forallb (same_kind a) col) col.

#[export] Instance engine : Engine := {|
  parse_csv data := csv_frame (string_of_list_byte data);
  arrow_error t :=
    if forallb typed_column (columns t) then None
    else Some (MkExn ArrowInvalid "Could not convert column with mixed types");
  serialize created t := list_byte_of_string (table_text created t);
  deserialize data :=
    match text_table (string_of_list_byte data) with
    | Some t => Returned t
    | None => Raised (MkExn ArrowInvalid "Parquet magic bytes not found")
    end
|}.

(** The specification's scenario: header [a,b,c], rows [1,2,3] and [4,5,6]. *)
Definition abc_csv : list byte :=
  list_byte_of_string (join_lines ["a,b,c"; "1,2,3"; "4,5,6"]).

Definition abc_frame : DataFrame :=
  MkFrame ["a"; "b"; "c"] [[CInt 1; CInt 2; CInt 3]; [CInt 4; CInt 5; CInt 6]].

(** A stream that encodes every text (UTF-8), and one that encodes 7-bit
    text only. *)
Definition utf8 (text : string) : bool := true.

Fixpoint ascii_only (text : string) : bool :=
  match text with
  | EmptyString => true
  | String c rest => Nat.ltb (nat_of_ascii c) 128 && ascii_only rest
  end.

Definition abc_world : world :=
  MkWorld {[ input_path := abc_csv ]} ∅ ∅ utf8 0 "" [].

(** The world after one conversion of [abc_world]. *)
Definition abc_converted : world :=
  converted (from_pandas abc_frame false) abc_world.

(** No input file; an output file is left from before. *)
Definition stale_output : list byte := list_byte_of_string "stale".

Definition stale_world : world :=
  MkWorld {[ output_path := stale_output ]} ∅ ∅ utf8 0 "" [].






End Sample.

(** ** Collaborators to evaluate the tool host with *)

Module SampleHost.

Import ToolHost.

Definition quiet (tools : list string) (failure : option exn) : effect :=
  MkEffect tools "" "" failure.

(** Each tool module registers one tool; the server answers on standard
    output when run. *)
Definition registering : Collaborators := {|
  load module _ :=
    if String.eqb module "tools.csv_tools" then quiet ["summarize_csv_file"] None
    else if String.eqb module "tools.parquet_tools" then quiet ["summarize_parquet_file"] None
    else quiet [] None;
  serve tools := MkEffect [] "{}" "" None
|}.

(** No module registers anything. *)
Definition no_tools : Collaborators := {|
  load _ _ := quiet [] None;
  serve tools := MkEffect [] "{}" "" None
|}.

(** [tools.parquet_tools] raises while it is loaded. *)
Definition boom : exn := MkExn (OtherError "RuntimeError") "boom".

Definition broken : Collaborators := {|
  load module _ :=
    if String.eqb module "tools.parquet_tools" then quiet [] (Some boom)
    else if String.eqb module "tools.csv_tools" then quiet ["summarize_csv_file"] None
    else quiet [] None;
  serve tools := MkEffect [] "{}" "" None
|}.

Definition fresh : interp := MkInterp [] "" "" [].

End SampleHost.

(** ** More worlds to evaluate the converter with *)

Module SampleWorlds.

Import Converter Sample.

(** The input is there, the output path holds an older file and cannot be
    opened for writing. *)
Definition locked_world : world :=
  MkWorld {[ input_path := abc_csv; output_path := stale_output ]}
          {[ output_path := EACCES ]} ∅ utf8 0 "" [].

(** The output path is a directory. *)
Definition directory_world : world :=
  MkWorld {[ input_path := abc_csv ]} {[ output_path := EISDIR ]} ∅ utf8 0 "" [].

(** The device is full: the output is opened, and the write fails at once. *)
Definition full_disk_world : world :=
  MkWorld {[ input_path := abc_csv; output_path := stale_output ]}
          ∅ {[ output_path := (0, ENOSPC) ]} utf8 0 "" [].

(** Standard output cannot encode the check mark of the confirmation. *)
Definition legacy_console_world : world :=
  MkWorld {[ input_path := abc_csv; output_path := stale_output ]}
          ∅ ∅ ascii_only 0 "" [].

(** The same input as [abc_world] at the same time, beside an older output
    and an unrelated file, with text already on standard output. *)
Definition busy_world : world :=
  MkWorld {[ input_path := abc_csv; output_path := stale_output;
             "notes.txt" := stale_output ]}
          ∅ ∅ utf8 0 "earlier" [Open "notes.txt" ReadMode].

Definition busy_converted : world :=
  converted (from_pandas abc_frame false) busy_world.

End SampleWorlds.

(** ** Statements run in sequence *)

Section Sequencing.

Context {S A B : Type}.

Lemma bind_returned (m : M S A) (k : A -> M S B) s a s' :
  m s = (Returned a, s') -> bind m k s = k a s'.
Proof. intros Hm. unfold bind. now rewrite Hm. Qed.

Lemma bind_raised (m : M S A) (k : A -> M S B) s e s' :
  m s = (Raised e, s') -> bind m k s = (Raised e, s').
Proof. intros Hm. unfold bind. now rewrite Hm. Qed.

End Sequencing.

(** ** The converter's properties *)

Module ConverterProofs.

Import Converter.

(** *** Rows to columns and back *)







Lemma rectangularb_spec (df : DataFrame) : rectangularb df = true <-> rectangular df.
Proof.
  unfold rectangularb, rectangular.
  rewrite forallb_forall, Forall_forall.
  split; intros H r Hr.
  - apply Nat.eqb_eq, H. now apply list_elem_of_In.
  - apply Nat.eqb_eq, H. now apply list_elem_of_In.
Qed.

(** With [index=True] the table would carry one more column. *)
Lemma from_pandas_index_column (df : DataFrame) :
  schema (from_pandas df true) = df_columns df ++ [index_column] /\
  schema (from_pandas df false) = df_columns df.
Proof. split; reflexivity. Qed.

Lemma string_drop_app (s t : string) : string_drop (String.length s) (s +:+ t) = t.
Proof. induction s as [| c s IH]; [reflexivity | exact IH]. Qed.

Lemma string_app_empty (s : string) : s +:+ "" = s.
Proof.
  induction s as [| c s IH]; [reflexivity |].
  change (String c (s +:+ "") = String c s). now rewrite IH.
Qed.

Lemma string_drop_all (s : string) : string_drop (String.length s) s = "".
Proof. rewrite <- (string_app_empty s) at 2. apply string_drop_app. Qed.

Section WithEngine.

Context {engine : Engine}.

(** *** The environment's refusals *)

Lemma elem_of_readonly (w : world) (path : string) :
  path ∈ readonly w <-> open_faults w !! path = Some EACCES.
Proof.
  unfold readonly. rewrite elem_of_dom. split.
  - intros [c Hc]. apply map_lookup_filter_Some in Hc as [Hc Hp].
    cbn in Hp. now subst c.
  - intros Hc. exists EACCES. now apply map_lookup_filter_Some.
Qed.

(** *** The run, case by case *)

Lemma generate_parquet_run (w : world) :
  generate_parquet w =
  match files w !! input_path with
  | None => (Raised (no_such_file input_path), opened_input w)
  | Some text =>
      match parse_csv text with
      | Raised e => (Raised e, opened_input w)
      | Returned df =>
          match arrow_error (from_pandas df false) with
          | Some e => (Raised e, opened_input w)
          | None =>
              match open_faults w !! output_path with
              | Some c => (Raised (open_error c output_path), opened_output w)
              | None =>
                  match write_faults w !! output_path with
                  | Some (k, c) =>
                      (Raised (write_error c), cut_short k (from_pandas df false) w)
                  | None =>
                      if stdout_encodes w confirmation
                      then (Returned tt, converted (from_pandas df false) w)
                      else (Raised encode_error, written (from_pandas df false) w)
                  end
              end
          end
      end
  end.
Proof.
  unfold generate_parquet, read_csv, to_parquet, read_bytes, write_bytes, print.
  unfold bind, lift, get, raise.
  destruct (files w !! input_path) as [text |]; [| reflexivity].
  destruct (parse_csv text) as [df | e]; [| reflexivity].
  destruct (arrow_error (from_pandas df false)) as [e |]; [reflexivity |].
  cbn [open_faults write_faults log_open].
  destruct (open_faults w !! output_path) as [c |]; [reflexivity |].
  destruct (write_faults w !! output_path) as [[k c] |]; [reflexivity |].
  cbn [stdout_encodes store log_open].
  now destruct (stdout_encodes w confirmation).
Qed.

Lemma new_syscalls_opened_input (w : world) :
  new_syscalls w (opened_input w) = [Open input_path ReadMode].
Proof. unfold new_syscalls, opened_input, log_open. cbn. apply drop_app_length. Qed.

Lemma new_syscalls_opened_output (w : world) :
  new_syscalls w (opened_output w) =
  [Open input_path ReadMode; Open output_path WriteMode].
Proof.
  unfold new_syscalls, opened_output, opened_input, log_open. cbn.
  rewrite <- app_assoc. apply drop_app_length.
Qed.

(** Storing and printing add nothing to the log of open attempts. *)
Lemma new_syscalls_cut_short (w : world) (k : nat) (t : Table) :
  new_syscalls w (cut_short k t w) = [Open input_path ReadMode; Open output_path WriteMode].
Proof. exact (new_syscalls_opened_output w). Qed.

Lemma new_syscalls_written (w : world) (t : Table) :
  new_syscalls w (written t w) = [Open input_path ReadMode; Open output_path WriteMode].
Proof. exact (new_syscalls_opened_output w). Qed.

Lemma new_syscalls_converted (w : world) (t : Table) :
  new_syscalls w (converted t w) = [Open input_path ReadMode; Open output_path WriteMode].
Proof. exact (new_syscalls_opened_output w). Qed.

Lemma input_is_not_output : input_path <> output_path.
Proof. discriminate. Qed.

(** The paths as Python reads its literals: one backslash each. *)
Example paths_as_written :
  String.length input_path = 15 /\ String.length output_path = 19.
Proof. split; reflexivity. Qed.

(** A successful run read a file that parsed and was accepted, opened and
    wrote the output without a fault, printed, and ended in [converted]. *)
Lemma generate_parquet_returned (w w1 : world) :
  generate_parquet w = (Returned tt, w1) ->
  exists text df,
    files w !! input_path = Some text /\
    parse_csv text = Returned df /\
    arrow_error (from_pandas df false) = None /\
    open_faults w !! output_path = None /\
    write_faults w !! output_path = None /\
    stdout_encodes w confirmation = true /\
    w1 = converted (from_pandas df false) w.
Proof.
  rewrite generate_parquet_run.
  destruct (files w !! input_path) as [text |]; [| discriminate].
  destruct (parse_csv text) as [df | e] eqn:Hparse; [| discriminate].
  destruct (arrow_error (from_pandas df false)) as [e |] eqn:Harrow; [discriminate |].
  destruct (open_faults w !! output_path) as [c |] eqn:Hopen; [discriminate |].
  destruct (write_faults w !! output_path) as [[k c] |] eqn:Hwrite; [discriminate |].
  destruct (stdout_encodes w confirmation) eqn:Hout; [| discriminate].
  intros [= <-]. now exists text, df.
Qed.

(** What a raising run can have done. *)
Lemma generate_parquet_raised (w : world) (e : exn) (w' : world) :
  generate_parquet w = (Raised e, w') ->
  w' = opened_input w \/
  w' = opened_output w /\ is_Some (open_faults w !! output_path) \/
  (exists (k : nat) (c : errno) (t : Table),
      open_faults w !! output_path = None /\
      write_faults w !! output_path = Some (k, c) /\
      e = write_error c /\ w' = cut_short k t w) \/
  (exists t : Table,
      open_faults w !! output_path = None /\
      write_faults w !! output_path = None /\
      stdout_encodes w confirmation = false /\
      e = encode_error /\ w' = written t w).
Proof.
  rewrite generate_parquet_run.
  destruct (files w !! input_path) as [text |]; [| intros [= <- <-]; now left].
  destruct (parse_csv text) as [df | e0]; [| intros [= <- <-]; now left].
  generalize (from_pandas df false) as t. intros t.
  destruct (arrow_error t) as [e0 |]; [intros [= <- <-]; now left |].
  destruct (open_faults w !! output_path) as [c |] eqn:Hopen.
  { intros [= <- <-]. right. left. split; [reflexivity | now exists c]. }
  destruct (write_faults w !! output_path) as [[k c] |] eqn:Hwrite.
  { intros [= <- <-]. right. right. left. now exists k, c, t. }
  destruct (stdout_encodes w confirmation) eqn:Hout; [discriminate |].
  intros [= <- <-]. right. right. right. now exists t.
Qed.


(** C2. When the input path does not exist, the converter raises a
    FileNotFoundError, the only file it tried to open is the input (for
    reading), no write was attempted, and the files, the output path among
    them, are as they were. *)
Theorem missing_input_fails_before_write (w : world) :
  files w !! input_path = None ->
  exists (e : exn) (w' : world),
    generate_parquet w = (Raised e, w') /\
    exn_cls e = FileNotFoundError /\
    subclass (exn_cls e) OSError = true /\
    new_syscalls w w' = [Open input_path ReadMode] /\
    filter (fun c => is_write c = true) (new_syscalls w w') = [] /\
    files w' = files w /\
    files w' !! output_path = files w !! output_path /\
    printed w w' = "".
Proof.
  intros Hmissing.
  exists (no_such_file input_path), (opened_input w).
  rewrite generate_parquet_run, Hmissing, new_syscalls_opened_input.
  repeat split; try reflexivity.
  unfold printed. cbn. apply string_drop_all.
Qed.

(** C4. A run that returns wrote exactly one line to standard output, the
    confirmation, and changed no file other than the output path, which now
    exists; a run that raises wrote nothing to standard output. *)
Theorem one_confirmation_line (w : world) (r : outcome unit) (w' : world) :
  generate_parquet w = (r, w') ->
  match r with
  | Returned _ =>
      printed w w' = confirmation +:+ newline /\
      line_count (printed w w') = 1 /\
      stdout w' = stdout w +:+ printed w w' /\
      (forall p : string, p <> output_path -> files w' !! p = files w !! p) /\
      is_Some (files w' !! output_path) /\
      filter (fun c => is_write c = true) (new_syscalls w w') = [Open output_path WriteMode]
  | Raised _ =>
      printed w w' = "" /\ stdout w' = stdout w
  end.
Proof.
  intros Hrun. destruct r as [[] | e].
  - destruct (generate_parquet_returned _ _ Hrun) as (text & df & _ & _ & _ & _ & _ & _ & ->).
    generalize (from_pandas df false) as t. intros t.
    assert (Hprinted : printed w (converted t w) = confirmation +:+ newline).
    { unfold printed, converted. cbn. apply string_drop_app. }
    rewrite Hprinted. repeat split.
    + intros p Hp. unfold converted. cbn. now apply lookup_insert_ne.
    + unfold converted. cbn. rewrite lookup_insert_eq. now eexists.
    + now rewrite new_syscalls_converted.
  - assert (Hout : stdout w' = stdout w).
    { destruct (generate_parquet_raised _ _ _ Hrun)
        as [-> | [[-> _] | [(k & c & t & _ & _ & _ & ->) | (t & _ & _ & _ & _ & ->)]]];
        reflexivity. }
    split; [| exact Hout].
    unfold printed. rewrite Hout. apply string_drop_all.
Qed.

(** C8. After a successful run, a second run on the same input succeeds too,
    and the table read back from the output is the same after two runs as
    after one, whatever the engine embedded of the two creation times. *)
Theorem conversion_idempotent (w w1 : world) (text : list byte) (df : DataFrame) :
  files w !! input_path = Some text ->
  parse_csv text = Returned df ->
  generate_parquet w = (Returned tt, w1) ->
  deserialize (serialize (now w) (from_pandas df false)) = Returned (from_pandas df false) ->
  deserialize (serialize (now w1) (from_pandas df false)) = Returned (from_pandas df false) ->
  exists w2 : world,
    generate_parquet w1 = (Returned tt, w2) /\
    fst (read_table output_path w1) = Returned (from_pandas df false) /\
    fst (read_table output_path w2) = fst (read_table output_path w1) /\
    files w2 !! input_path = files w !! input_path.
Proof.
  intros Hfile Hparse Hrun Hcodec Hcodec1.
  destruct (generate_parquet_returned _ _ Hrun)
    as (text' & df' & Hfile' & Hparse' & Harrow & Hopen & Hwrite & Hout & ->).
  rewrite Hfile in Hfile'. injection Hfile' as <-.
  rewrite Hparse in Hparse'. injection Hparse' as <-.
  set (t := from_pandas df false) in *.
  assert (Hin1 : files (converted t w) !! input_path = Some text).
  { unfold converted. cbn. rewrite lookup_insert_ne; [exact Hfile |].
    intros Heq. now apply input_is_not_output. }
  exists (converted t (converted t w)).
  split.
  { rewrite generate_parquet_run, Hin1, Hparse. fold t. rewrite Harrow.
    change (open_faults (converted t w)) with (open_faults w).
    change (write_faults (converted t w)) with (write_faults w).
    change (stdout_encodes (converted t w)) with (stdout_encodes w).
    now rewrite Hopen, Hwrite, Hout. }
  assert (Hread : forall w0 : world,
    deserialize (serialize (now w0) t) = Returned t ->
    fst (read_table output_path (converted t w0)) = Returned t).
  { intros w0 Hc. unfold read_table, read_bytes, bind, lift, converted.
    cbn [files emit store]. rewrite lookup_insert_eq. now rewrite Hc. }
  split; [now apply Hread |].
  split; [now rewrite !Hread |].
  rewrite Hfile, <- Hin1. generalize (converted t w) as w1. intros w1.
  unfold converted. cbn. apply lookup_insert_ne.
  intros Heq. now apply input_is_not_output.
Qed.

(** C10. Whatever the outcome of a run, the input file is as it was, every
    file other than the output path is as it was, the input was opened for
    reading only, and the output path is the only path opened for writing. *)
Theorem input_only_read (w : world) (r : outcome unit) (w' : world) :
  generate_parquet w = (r, w') ->
  files w' !! input_path = files w !! input_path /\
  (forall p : string, p <> output_path -> files w' !! p = files w !! p) /\
  Forall (fun c => sc_path c = input_path -> sc_mode c = ReadMode) (new_syscalls w w') /\
  Forall (fun c => sc_mode c = WriteMode -> sc_path c = output_path) (new_syscalls w w') /\
  readonly w' = readonly w.
Proof.
  intros Hrun.
  assert (Hcases :
    w' = opened_input w \/ w' = opened_output w \/
    exists data : list byte, w' = store output_path data (opened_output w) \/
      w' = emit (confirmation +:+ newline) (store output_path data (opened_output w))).
  { destruct r as [[] | e].
    - destruct (generate_parquet_returned _ _ Hrun) as (text & df & _ & _ & _ & _ & _ & _ & ->).
      right. right. eexists. right. reflexivity.
    - destruct (generate_parquet_raised _ _ _ Hrun)
        as [-> | [[-> _] | [(k & c & t & _ & _ & _ & ->) | (t & _ & _ & _ & _ & ->)]]].
      + now left.
      + right. now left.
      + right. right. eexists. left. reflexivity.
      + right. right. eexists. left. reflexivity. }
  assert (Hframe : forall p : string, p <> output_path -> files w' !! p = files w !! p).
  { intros p Hp.
    destruct Hcases as [-> | [-> | (data & [-> | ->])]]; try reflexivity;
      cbn; now apply lookup_insert_ne. }
  split; [apply Hframe, input_is_not_output |].
  split; [exact Hframe |].
  destruct Hcases as [-> | [-> | (data & [-> | ->])]].
  - rewrite new_syscalls_opened_input.
    repeat split; repeat constructor; discriminate.
  - rewrite new_syscalls_opened_output.
    repeat split; repeat constructor; discriminate.
  - change (new_syscalls w (store output_path data (opened_output w)))
      with (new_syscalls w (opened_output w)).
    rewrite new_syscalls_opened_output.
    repeat split; repeat constructor; discriminate.
  - change (new_syscalls w (emit (confirmation +:+ newline)
                                 (store output_path data (opened_output w))))
      with (new_syscalls w (opened_output w)).
    rewrite new_syscalls_opened_output.
    repeat split; repeat constructor; discriminate.
Qed.

End WithEngine.

(** *** The theorems on the specification's scenario *)

Import Sample.



Lemma missing_input_fails_before_write_witness :
  exists (e : exn) (w' : world),
    generate_parquet stale_world = (Raised e, w') /\
    exn_cls e = FileNotFoundError /\
    new_syscalls stale_world w' = [Open input_path ReadMode] /\
    files w' !! output_path = Some stale_output.
Proof.
  destruct (missing_input_fails_before_write stale_world)
    as (e & w' & Hrun & Hcls & _ & Hlog & _ & _ & Hout & _).
  - vm_compute. reflexivity.
  - exists e, w'. rewrite Hout. repeat split; assumption || reflexivity.
Defined.

Lemma one_confirmation_line_witness :
  (printed abc_world abc_converted = confirmation +:+ newline /\
   line_count (printed abc_world abc_converted) = 1) /\
  printed stale_world (opened_input stale_world) = "".
Proof.
  split.
  - pose proof (one_confirmation_line abc_world (Returned tt) abc_converted) as H.
    cbv beta iota in H.
    destruct H as (Hline & Hcount & _); [vm_compute; reflexivity |].
    split; assumption.
  - pose proof (one_confirmation_line stale_world
                  (Raised (no_such_file input_path)) (opened_input stale_world)) as H.
    cbv beta iota in H.
    destruct H as (Hnone & _); [vm_compute; reflexivity |].
    exact Hnone.
Defined.

Lemma conversion_idempotent_witness :
  exists w2 : world,
    generate_parquet abc_converted = (Returned tt, w2) /\
    fst (read_table output_path abc_converted) = Returned (from_pandas abc_frame false) /\
    fst (read_table output_path w2) = fst (read_table output_path abc_converted).
Proof.
  destruct (conversion_idempotent abc_world abc_converted abc_csv abc_frame)
    as (w2 & Hrun & Hone & Htwo & _).
  - reflexivity.
  - vm_compute. reflexivity.
  - vm_compute. reflexivity.
  - vm_compute. reflexivity.
  - vm_compute. reflexivity.
  - exists w2. repeat split; assumption.
Defined.

Lemma input_only_read_witness :
  files abc_converted !! input_path = Some abc_csv /\
  files (opened_input stale_world) !! input_path = None.
Proof.
  split.
  - destruct (input_only_read abc_world (Returned tt) abc_converted) as (Hin & _).
    + vm_compute. reflexivity.
    + rewrite Hin. reflexivity.
  - destruct (input_only_read stale_world (Raised (no_such_file input_path))
                (opened_input stale_world)) as (Hin & _).
    + vm_compute. reflexivity.
    + rewrite Hin. reflexivity.
Defined.

(** The sample parser only returns rectangular frames. *)
Lemma pad_length (m : nat) (r r' : list Cell) : pad m r = Some r' -> length r' = m.
Proof.
  revert r r'. induction m as [| m IH]; intros r r'.
  - destruct r; cbn; [now intros [= <-] | discriminate].
  - destruct r as [| c r]; cbn.
    + destruct (pad m []) as [t |] eqn:Hpad; cbn; [| discriminate].
      intros [= <-]. cbn. f_equal. now apply (IH []).
    + destruct (pad m r) as [t |] eqn:Hpad; cbn; [| discriminate].
      intros [= <-]. cbn. f_equal. now apply (IH r).
Qed.

Lemma csv_frame_rectangular (text : string) (df : DataFrame) :
  csv_frame text = Returned df -> rectangular df.
Proof.
  unfold csv_frame. destruct (lines text) as [| header data]; [discriminate |].
  destruct (mapM _ data) as [rows |] eqn:Hrows; [| discriminate].
  intros [= <-]. unfold rectangular. cbn.
  apply mapM_Some in Hrows.
  induction Hrows as [| l r data rows Hpad _ IH]; constructor.
  - now apply pad_length in Hpad.
  - exact IH.
Qed.

(** The two runs of the sample engine do not leave the same bytes. *)
Example second_run_changes_bytes :
  files (converted (from_pandas abc_frame false) abc_converted) !! output_path
  <> files abc_converted !! output_path.
Proof. vm_compute. discriminate. Qed.

End ConverterProofs.


(** ** The tool host's properties *)

Module ToolHostProofs.

Import ToolHost.

Lemma string_app_assoc (a b c : string) : (a +:+ b) +:+ c = a +:+ b +:+ c.
Proof.
  induction a as [| x a IH]; [reflexivity |].
  change (String x ((a +:+ b) +:+ c) = String x (a +:+ b +:+ c)). now rewrite IH.
Qed.

Lemma text_of_app (l1 l2 : list string) :
  text_of (l1 ++ l2) = text_of l1 +:+ text_of l2.
Proof.
  induction l1 as [| x l1 IH]; [reflexivity |].
  cbn [app text_of fold_right]. fold (text_of (l1 ++ l2)). fold (text_of l1).
  now rewrite IH, string_app_assoc.
Qed.

Section WithCollaborators.

Context {collaborators : Collaborators}.

(** *** One statement *)

Lemma import_module_run (module : string) (s : interp) :
  import_module module s =
  (match raised (load module (registry s)) with
   | Some x => Raised x
   | None => Returned tt
   end,
   absorb (load module (registry s)) (log_event (Import module) s)).
Proof.
  unfold import_module, perform. cbn [registry log_event].
  now destruct (raised (load module (registry s))).
Qed.

Lemma mcp_run_run (s : interp) :
  mcp_run s =
  (match raised (serve (registry s)) with
   | Some x => Raised x
   | None => Returned tt
   end,
   absorb (serve (registry s)) (log_event (Run (registry s)) s)).
Proof.
  unfold mcp_run, perform. now destruct (raised (serve (registry s))).
Qed.

(** The module body is the imports followed by the guarded call. *)
Lemma main_imports (name : string) (s : interp) :
  main name s =
  bind imports (fun _ => if String.eqb name "__main__" then mcp_run else ret tt) s.
Proof.
  unfold main, imports, bind.
  destruct (from_import "server" "mcp" s) as [[[] | e1] s1]; [| reflexivity].
  destruct (import_module "tools.csv_tools" s1) as [[[] | e2] s2]; [| reflexivity].
  now destruct (import_module "tools.parquet_tools" s2) as [[[] | e3] s3].
Qed.

(** *** The log and the collaborators' effects *)

Lemma replay_snoc (reg : list string) (evs : list event) (ev : event) :
  replay reg (evs ++ [ev]) =
  replay reg evs ++ [answer (reg ++ concat (map registered (replay reg evs))) ev].
Proof.
  revert reg. induction evs as [| ev0 evs IH]; intros reg.
  - cbn. now rewrite app_nil_r.
  - cbn [app replay map concat]. rewrite IH. now rewrite <- app_assoc.
Qed.

Lemma accounted_refl (s : interp) : accounted s s.
Proof.
  exists []. cbn. rewrite !app_nil_r.
  repeat split; symmetry; apply ConverterProofs.string_app_empty.
Qed.

(** A logged statement that absorbs its collaborator's answer keeps the account. *)
Lemma accounted_step (s0 s : interp) (ev : event) :
  accounted s0 s ->
  accounted s0 (absorb (answer (registry s) ev) (log_event ev s)).
Proof.
  intros (evs & Hev & Hreg & Hout & Herr).
  exists (evs ++ [ev]). cbn [events registry out err absorb log_event].
  rewrite replay_snoc, !map_app, concat_app, !text_of_app. cbn [map concat text_of fold_right].
  rewrite Hev, Hout, Herr, <- Hreg.
  rewrite !ConverterProofs.string_app_empty, app_nil_r.
  rewrite !string_app_assoc, <- !app_assoc. rewrite Hreg at 1.
  now rewrite <- !app_assoc.
Qed.

Lemma accounted_import (s0 s : interp) (module : string) :
  accounted s0 s -> accounted s0 (snd (import_module module s)).
Proof.
  intros Hacc. rewrite import_module_run. cbn [snd].
  exact (accounted_step s0 s (Import module) Hacc).
Qed.

Lemma accounted_run (s0 s : interp) :
  accounted s0 s -> accounted s0 (snd (mcp_run s)).
Proof.
  intros Hacc. rewrite mcp_run_run. cbn [snd].
  exact (accounted_step s0 s (Run (registry s)) Hacc).
Qed.

Lemma accounted_bind (s0 s : interp) (m : M interp unit) (k : unit -> M interp unit) :
  accounted s0 (snd (m s)) ->
  (forall s1, accounted s0 s1 -> accounted s0 (snd (k tt s1))) ->
  accounted s0 (snd (bind m k s)).
Proof.
  intros Hm Hk. unfold bind. destruct (m s) as [[[] | e] s1]; cbn [snd] in *.
  - now apply Hk.
  - exact Hm.
Qed.

Lemma accounted_imports (s0 s : interp) :
  accounted s0 s -> accounted s0 (snd (imports s)).
Proof.
  intros Hacc. unfold imports, from_import.
  apply accounted_bind; [now apply accounted_import |]. intros s1 H1.
  apply accounted_bind; [now apply accounted_import |]. intros s2 H2.
  now apply accounted_import.
Qed.

Lemma accounted_main (name : string) (s : interp) :
  accounted s (snd (main name s)).
Proof.
  rewrite main_imports.
  apply accounted_bind; [apply accounted_imports, accounted_refl |].
  intros s3 H3. destruct (String.eqb name "__main__").
  - now apply accounted_run.
  - exact H3.
Qed.

Lemma accounted_new_events (s s' : interp) :
  accounted s s' ->
  events s' = events s ++ new_events s s' /\
  registry s' = registry s ++ concat (map registered (replay (registry s) (new_events s s'))) /\
  out s' = out s +:+ text_of (map wrote_out (replay (registry s) (new_events s s'))) /\
  err s' = err s +:+ text_of (map wrote_err (replay (registry s) (new_events s s'))).
Proof.
  intros (evs & Hev & Hreg & Hout & Herr).
  assert (Hnew : new_events s s' = evs).
  { unfold new_events. rewrite Hev. apply drop_app_length. }
  rewrite Hnew. now repeat split.
Qed.

Lemma replay_external (reg : list string) (evs : list event) :
  Forall external (replay reg evs).
Proof.
  revert reg. induction evs as [| ev evs IH]; intros reg; cbn [replay].
  - constructor.
  - constructor; [| apply IH].
    destruct ev as [module | tools]; cbn [answer].
    + left. now exists module, reg.
    + right. now exists reg.
Qed.

(** *** The imports, case by case *)

Lemma bind_ret_tt (m : M interp unit) (s : interp) :
  bind m (fun _ => ret tt) s = m s.
Proof. unfold bind, ret. now destruct (m s) as [[[] | e] s1]. Qed.

Lemma imports_cases (s : interp) (r : outcome unit) (s' : interp) :
  imports s = (r, s') ->
  (r = Returned tt /\ new_events s s' = map Import tool_modules) \/
  (exists (e : exn) (module : string) (reg : list string) (k : nat),
      r = Raised e /\
      module ∈ tool_modules /\
      raised (load module reg) = Some e /\
      new_events s s' = take k (map Import tool_modules)).
Proof.
  unfold imports, from_import, bind.
  rewrite import_module_run.
  destruct (raised (load "server" (registry s))) as [e1 |] eqn:H1.
  { intros [= <- <-]. right. exists e1, "server", (registry s), 1.
    repeat split; [set_solver | exact H1 |].
    unfold new_events. cbn. apply drop_app_length. }
  rewrite import_module_run.
  set (s1 := absorb (load "server" (registry s)) (log_event (Import "server") s)).
  destruct (raised (load "tools.csv_tools" (registry s1))) as [e2 |] eqn:H2.
  { intros [= <- <-]. right. exists e2, "tools.csv_tools", (registry s1), 2.
    repeat split; [set_solver | exact H2 |].
    unfold new_events. cbn. rewrite <- app_assoc. apply drop_app_length. }
  rewrite import_module_run.
  set (s2 := absorb (load "tools.csv_tools" (registry s1))
                    (log_event (Import "tools.csv_tools") s1)).
  destruct (raised (load "tools.parquet_tools" (registry s2))) as [e3 |] eqn:H3.
  { intros [= <- <-]. right. exists e3, "tools.parquet_tools", (registry s2), 3.
    repeat split; [set_solver | exact H3 |].
    unfold new_events. cbn. rewrite <- !app_assoc. apply drop_app_length. }
  intros [= <- <-]. left. split; [reflexivity |].
  unfold new_events. cbn. rewrite <- !app_assoc. apply drop_app_length.
Qed.

Lemma imports_never_run (s : interp) :
  Forall (fun ev => is_run ev = false) (new_events s (snd (imports s))).
Proof.
  destruct (imports s) as [r s'] eqn:Himp. cbn [snd].
  destruct (imports_cases _ _ _ Himp) as [[_ ->] | (e & m & reg & k & _ & _ & _ & ->)].
  - repeat constructor.
  - apply Forall_take. repeat constructor.
Qed.

Lemma new_events_snoc (s s' : interp) (ev : event) :
  events s' = events s ++ new_events s s' ->
  new_events s (log_event ev s') = new_events s s' ++ [ev].
Proof.
  intros Hev. unfold new_events at 1. cbn [events log_event].
  rewrite Hev, <- app_assoc. apply drop_app_length.
Qed.

(** C5. When the three imports complete, the module run as the main program
    goes on to the server's run in the state the imports left: the log shows
    the server import, the two tool imports and then the run, in that order,
    the run sees the registry as the imports built it, and it is reached
    whatever that registry holds, an empty one included. *)
Theorem startup_order (s s3 : interp) :
  imports s = (Returned tt, s3) ->
  main "__main__" s = mcp_run s3 /\
  new_events s s3 =
    [Import "server"; Import "tools.csv_tools"; Import "tools.parquet_tools"] /\
  new_events s (snd (main "__main__" s)) =
    [Import "server"; Import "tools.csv_tools"; Import "tools.parquet_tools";
     Run (registry s3)] /\
  registry s3 =
    registry s ++ concat (map registered (replay (registry s) (new_events s s3))).
Proof.
  intros Himp.
  assert (Hmain : main "__main__" s = mcp_run s3).
  { rewrite main_imports. now rewrite (bind_returned _ _ _ _ _ Himp). }
  assert (Hacc : accounted s s3).
  { pose proof (accounted_imports s s (accounted_refl s)) as H.
    now rewrite Himp in H. }
  destruct (accounted_new_events _ _ Hacc) as (Hev & Hreg & _ & _).
  destruct (imports_cases _ _ _ Himp) as [[_ Hnew] | (e & m & reg & k & Hr & _)];
    [| discriminate Hr].
  repeat split.
  - exact Hmain.
  - exact Hnew.
  - rewrite Hmain, mcp_run_run. cbn [snd].
    change (new_events s (absorb (serve (registry s3)) (log_event (Run (registry s3)) s3)))
      with (new_events s (log_event (Run (registry s3)) s3)).
    rewrite (new_events_snoc _ _ _ Hev), Hnew. reflexivity.
  - exact Hreg.
Qed.

(** C6. When one of the imports raises, the module body ends with that very
    exception, raised by the load of one of the three modules, in the state
    the failing import left, and no run of the server is in the log. *)
Theorem import_failure_never_runs (name : string) (s s' : interp) (e : exn) :
  imports s = (Raised e, s') ->
  main name s = (Raised e, s') /\
  Forall (fun ev => is_run ev = false) (new_events s s') /\
  exists (module : string) (reg : list string),
    module ∈ tool_modules /\ raised (load module reg) = Some e.
Proof.
  intros Himp. split; [| split].
  - rewrite main_imports. now apply bind_raised.
  - pose proof (imports_never_run s) as H. now rewrite Himp in H.
  - destruct (imports_cases _ _ _ Himp) as [[Hr _] | (e' & m & reg & k & Hr & Hin & Hraised & _)];
      [discriminate Hr |].
    injection Hr as <-. now exists m, reg.
Qed.

(** C7. Whatever the module body logged, both standard streams grew by
    exactly the text of the collaborators behind the log entries (module
    loads and the server's run), in log order, and by nothing of the entry
    point's own.  This holds for the whole body and for the imports alone,
    that is before control goes to the server. *)
Theorem entry_point_writes_nothing (name : string) (s : interp) :
  (out (snd (main name s)) =
     out s +:+ text_of (map wrote_out
                          (replay (registry s) (new_events s (snd (main name s))))) /\
   err (snd (main name s)) =
     err s +:+ text_of (map wrote_err
                          (replay (registry s) (new_events s (snd (main name s))))) /\
   Forall external (replay (registry s) (new_events s (snd (main name s))))) /\
  (out (snd (imports s)) =
     out s +:+ text_of (map wrote_out
                          (replay (registry s) (new_events s (snd (imports s))))) /\
   err (snd (imports s)) =
     err s +:+ text_of (map wrote_err
                          (replay (registry s) (new_events s (snd (imports s)))))).
Proof.
  split.
  - destruct (accounted_new_events _ _ (accounted_main name s)) as (_ & _ & Hout & Herr).
    repeat split; [exact Hout | exact Herr | apply replay_external].
  - destruct (accounted_new_events _ _ (accounted_imports s s (accounted_refl s)))
      as (_ & _ & Hout & Herr).
    split; [exact Hout | exact Herr].
Qed.

(** With modules that load silently, the streams are untouched when the
    server's run is called, and afterwards hold the server's text only. *)
Corollary silent_modules_leave_streams (s s3 : interp) :
  (forall module reg, wrote_out (load module reg) = "" /\ wrote_err (load module reg) = "") ->
  imports s = (Returned tt, s3) ->
  (out s3 = out s /\ err s3 = err s) /\
  out (snd (main "__main__" s)) = out s +:+ wrote_out (serve (registry s3)) /\
  err (snd (main "__main__" s)) = err s +:+ wrote_err (serve (registry s3)).
Proof.
  intros Hsilent Himp.
  assert (Hacc : accounted s s3).
  { pose proof (accounted_imports s s (accounted_refl s)) as H.
    now rewrite Himp in H. }
  destruct (accounted_new_events _ _ Hacc) as (_ & _ & Hout & Herr).
  destruct (imports_cases _ _ _ Himp) as [[_ Hnew] | (e & m & reg & k & Hr & _)];
    [| discriminate Hr].
  rewrite Hnew in Hout, Herr. cbn in Hout, Herr.
  rewrite !(proj1 (Hsilent _ _)) in Hout. rewrite !(proj2 (Hsilent _ _)) in Herr.
  cbn in Hout, Herr. rewrite ConverterProofs.string_app_empty in Hout, Herr.
  assert (Hmain : main "__main__" s = mcp_run s3).
  { rewrite main_imports. now rewrite (bind_returned _ _ _ _ _ Himp). }
  rewrite Hmain, mcp_run_run. cbn [snd out err absorb log_event].
  now rewrite Hout, Herr.
Qed.

(** C9. Under any [__name__] other than ["__main__"], the module body is the
    three imports and nothing more: same outcome, same registry, same
    streams, and no run of the server in the log. *)
Theorem import_does_not_run (name : string) (s : interp) :
  name <> "__main__" ->
  main name s = imports s /\
  Forall (fun ev => is_run ev = false) (new_events s (snd (main name s))) /\
  registry (snd (main name s)) =
    registry s ++ concat (map registered
                            (replay (registry s) (new_events s (snd (main name s))))) /\
  (fst (main name s) = Returned tt ->
   new_events s (snd (main name s)) = map Import tool_modules).
Proof.
  intros Hname.
  assert (Hmain : main name s = imports s).
  { rewrite main_imports. apply String.eqb_neq in Hname. rewrite Hname.
    apply bind_ret_tt. }
  rewrite Hmain. repeat split.
  - apply imports_never_run.
  - now destruct (accounted_new_events _ _ (accounted_imports s s (accounted_refl s)))
      as (_ & Hreg & _).
  - destruct (imports s) as [r s'] eqn:Himp. cbn [fst snd]. intros ->.
    destruct (imports_cases _ _ _ Himp) as [[_ Hnew] | (e & m & reg & k & Hr & _)];
      [exact Hnew | discriminate Hr].
Qed.

End WithCollaborators.

(** *** The theorems on the sample collaborators *)

Import SampleHost.

Lemma startup_order_witness :
  new_events fresh (snd (@main no_tools "__main__" fresh)) =
    [Import "server"; Import "tools.csv_tools"; Import "tools.parquet_tools"; Run []] /\
  new_events fresh (snd (@main registering "__main__" fresh)) =
    [Import "server"; Import "tools.csv_tools"; Import "tools.parquet_tools";
     Run ["summarize_csv_file"; "summarize_parquet_file"]].
Proof.
  split.
  - destruct (@startup_order no_tools fresh (MkInterp [] "" "" (map Import tool_modules)))
      as (_ & _ & Hlog & _); [vm_compute; reflexivity |].
    exact Hlog.
  - destruct (@startup_order registering fresh
                (MkInterp ["summarize_csv_file"; "summarize_parquet_file"] "" ""
                          (map Import tool_modules)))
      as (_ & _ & Hlog & _); [vm_compute; reflexivity |].
    exact Hlog.
Defined.

Lemma import_failure_never_runs_witness :
  fst (@main broken "__main__" fresh) = Raised boom /\
  Forall (fun ev => is_run ev = false)
         (new_events fresh (snd (@main broken "__main__" fresh))).
Proof.
  destruct (@import_failure_never_runs broken "__main__" fresh
              (MkInterp ["summarize_csv_file"] "" "" (map Import tool_modules)) boom)
    as (Hmain & Hlog & _); [vm_compute; reflexivity |].
  rewrite Hmain. split; [reflexivity | exact Hlog].
Defined.

Lemma import_does_not_run_witness :
  @main registering "main" fresh = @imports registering fresh /\
  Forall (fun ev => is_run ev = false)
         (new_events fresh (snd (@main registering "main" fresh))).
Proof.
  destruct (@import_does_not_run registering "main" fresh) as (Hmain & Hlog & _);
    [discriminate |].
  split; [exact Hmain | exact Hlog].
Defined.

End ToolHostProofs.

(** ** Exceptions reach the top of both scripts *)

Module Propagation.

Import Converter ToolHost.

Section BothScripts.

Context {engine : Engine} {collaborators : Collaborators}.

(** C3. Neither script has a handler.  In the converter, an exception of
    [read_csv] (a missing file, or whatever the parser raises) or of
    [to_parquet] (a rejected table, an unwritable path) is the outcome of the
    script, the same exception in the state the failing call left, so that
    nothing ran after it and nothing was tried again.  In the tool host the
    same holds for each of the three imports, for the server's run, and for
    whatever exception the load of a module reports. *)
Theorem errors_reach_the_top :
  (forall (w : world) (e : exn) (w1 : world),
     read_csv input_path w = (Raised e, w1) ->
     generate_parquet w = (Raised e, w1)) /\
  (forall (w : world) (df : DataFrame) (w1 : world) (e : exn) (w2 : world),
     read_csv input_path w = (Returned df, w1) ->
     to_parquet df output_path false w1 = (Raised e, w2) ->
     generate_parquet w = (Raised e, w2)) /\
  (forall (w : world),
     files w !! input_path = None ->
     read_csv input_path w = (Raised (no_such_file input_path), opened_input w)) /\
  (forall (w : world) (text : list byte) (e : exn),
     files w !! input_path = Some text ->
     parse_csv text = Raised e ->
     read_csv input_path w = (Raised e, opened_input w)) /\
  (forall (w : world) (df : DataFrame) (e : exn),
     arrow_error (from_pandas df false) = Some e ->
     to_parquet df output_path false w = (Raised e, w)) /\
  (forall (w : world) (df : DataFrame),
     arrow_error (from_pandas df false) = None ->
     output_path ∈ readonly w ->
     to_parquet df output_path false w =
       (Raised (permission_denied output_path),
        log_open (Open output_path WriteMode) w)) /\
  (forall (name : string) (s : interp) (e : exn) (s1 : interp),
     from_import "server" "mcp" s = (Raised e, s1) ->
     main name s = (Raised e, s1)) /\
  (forall (name : string) (s s1 : interp) (e : exn) (s2 : interp),
     from_import "server" "mcp" s = (Returned tt, s1) ->
     import_module "tools.csv_tools" s1 = (Raised e, s2) ->
     main name s = (Raised e, s2)) /\
  (forall (name : string) (s s1 s2 : interp) (e : exn) (s3 : interp),
     from_import "server" "mcp" s = (Returned tt, s1) ->
     import_module "tools.csv_tools" s1 = (Returned tt, s2) ->
     import_module "tools.parquet_tools" s2 = (Raised e, s3) ->
     main name s = (Raised e, s3)) /\
  (forall (s s3 : interp) (e : exn) (s4 : interp),
     imports s = (Returned tt, s3) ->
     mcp_run s3 = (Raised e, s4) ->
     main "__main__" s = (Raised e, s4)) /\
  (forall (module : string) (s : interp) (e : exn),
     raised (load module (registry s)) = Some e ->
     import_module module s =
       (Raised e, absorb (load module (registry s)) (log_event (Import module) s))).
Proof.
  repeat apply conj.
  - intros w e w1 Hread. unfold generate_parquet. now apply bind_raised.
  - intros w df w1 e w2 Hread Hwrite. unfold generate_parquet.
    rewrite (bind_returned _ _ _ _ _ Hread). now apply bind_raised.
  - intros w Hmissing. unfold read_csv, read_bytes, bind.
    now rewrite Hmissing.
  - intros w text e Hfile Hparse. unfold read_csv, read_bytes, bind, lift.
    now rewrite Hfile, Hparse.
  - intros w df e Harrow. unfold to_parquet. now rewrite Harrow.
  - intros w df Harrow Hro. apply ConverterProofs.elem_of_readonly in Hro.
    unfold to_parquet, write_bytes, bind, get.
    rewrite Harrow. cbn [open_faults]. now rewrite Hro.
  - intros name s e s1 H1. unfold main. now apply bind_raised.
  - intros name s s1 e s2 H1 H2. unfold main.
    rewrite (bind_returned _ _ _ _ _ H1). now apply bind_raised.
  - intros name s s1 s2 e s3 H1 H2 H3. unfold main.
    rewrite (bind_returned _ _ _ _ _ H1), (bind_returned _ _ _ _ _ H2).
    now apply bind_raised.
  - intros s s3 e s4 Himp Hrun. rewrite ToolHostProofs.main_imports.
    now rewrite (bind_returned _ _ _ _ _ Himp).
  - intros module s e Hraised. rewrite ToolHostProofs.import_module_run.
    now rewrite Hraised.
Qed.

End BothScripts.

Import Sample SampleHost.

Lemma errors_reach_the_top_witness :
  generate_parquet stale_world = (Raised (no_such_file input_path), opened_input stale_world) /\
  @main broken "__main__" fresh =
    (Raised boom, MkInterp ["summarize_csv_file"] "" "" (map Import tool_modules)).
Proof.
  pose proof (@errors_reach_the_top Sample.engine broken) as H.
  destruct H as (Hread & _ & _ & _ & _ & _ & _ & _ & Himport & _).
  split.
  - apply Hread. vm_compute. reflexivity.
  - apply (Himport "__main__" fresh
             (MkInterp [] "" "" [Import "server"])
             (MkInterp ["summarize_csv_file"] "" "" [Import "server"; Import "tools.csv_tools"])).
    + vm_compute. reflexivity.
    + vm_compute. reflexivity.
    + vm_compute. reflexivity.
Defined.

End Propagation.


(** ** Further properties of the converter *)

Module ConverterMore.

Import Converter ConverterProofs.

Section WithEngine.

Context {engine : Engine}.


(** X2. A run that returns went through every step: the input existed,
    parsed and was accepted, the output was opened and written without a
    fault, and standard output took the line.  The output then holds the
    engine's bytes for the table of the input as it was read, whatever the
    path held before, and standard output grew by the confirmation line. *)
Theorem returned_run_went_through (w w' : world) :
  generate_parquet w = (Returned tt, w') ->
  exists (text : list byte) (df : DataFrame),
    files w !! input_path = Some text /\
    parse_csv text = Returned df /\
    arrow_error (from_pandas df false) = None /\
    open_faults w !! output_path = None /\
    write_faults w !! output_path = None /\
    stdout_encodes w confirmation = true /\
    files w' = <[output_path := serialize (now w) (from_pandas df false)]> (files w) /\
    stdout w' = stdout w +:+ confirmation +:+ newline.
Proof.
  intros Hrun.
  destruct (generate_parquet_returned _ _ Hrun)
    as (text & df & Hfile & Hparse & Harrow & Hopen & Hwrite & Hout & ->).
  exists text, df. now repeat split.
Qed.

(** X3. The output path is opened for writing only after the input was
    read, parsed and accepted: a write attempt in the log means all three
    happened, and the log is then the read followed by the write. *)
Theorem write_only_after_read (w : world) (r : outcome unit) (w' : world) :
  generate_parquet w = (r, w') ->
  Open output_path WriteMode ∈ new_syscalls w w' ->
  (exists (text : list byte) (df : DataFrame),
      files w !! input_path = Some text /\
      parse_csv text = Returned df /\
      arrow_error (from_pandas df false) = None) /\
  new_syscalls w w' = [Open input_path ReadMode; Open output_path WriteMode].
Proof.
  assert (Hno : Open output_path WriteMode ∉ [Open input_path ReadMode]).
  { intros Hin. apply list_elem_of_singleton in Hin. discriminate Hin. }
  rewrite generate_parquet_run.
  destruct (files w !! input_path) as [text |] eqn:Hfile.
  2: { intros [= <- <-]. rewrite new_syscalls_opened_input. intros Hin. now destruct Hno. }
  destruct (parse_csv text) as [df | e0] eqn:Hparse.
  2: { intros [= <- <-]. rewrite new_syscalls_opened_input. intros Hin. now destruct Hno. }
  destruct (arrow_error (from_pandas df false)) as [e0 |] eqn:Harrow.
  { intros [= <- <-]. rewrite new_syscalls_opened_input. intros Hin. now destruct Hno. }
  destruct (open_faults w !! output_path) as [c |].
  { intros [= <- <-] _. split; [now exists text, df | apply new_syscalls_opened_output]. }
  destruct (write_faults w !! output_path) as [[k c] |].
  { intros [= <- <-] _. split; [now exists text, df | apply new_syscalls_cut_short]. }
  destruct (stdout_encodes w confirmation); intros [= <- <-] _.
  - split; [now exists text, df | apply new_syscalls_converted].
  - split; [now exists text, df | apply new_syscalls_written].
Qed.

(** X4. When the input is fine but the operating system refuses to open the
    output path for writing, the run raises the exception of that refusal:
    an OSError of the class Python gives the reason, a PermissionError for
    [EACCES] and [EPERM] only.  It made exactly two open attempts, the read
    and the refused write; no file changed and nothing was printed. *)
Theorem unwritable_output_fails
    (w : world) (text : list byte) (df : DataFrame) (c : errno) :
  files w !! input_path = Some text ->
  parse_csv text = Returned df ->
  arrow_error (from_pandas df false) = None ->
  open_faults w !! output_path = Some c ->
  exists (e : exn) (w' : world),
    generate_parquet w = (Raised e, w') /\
    e = open_error c output_path /\
    exn_cls e = errno_class c /\
    subclass (exn_cls e) OSError = true /\
    (exn_cls e = PermissionError <-> c = EACCES \/ c = EPERM) /\
    new_syscalls w w' = [Open input_path ReadMode; Open output_path WriteMode] /\
    files w' = files w /\
    printed w w' = "".
Proof.
  intros Hfile Hparse Harrow Hopen.
  exists (open_error c output_path), (opened_output w).
  rewrite generate_parquet_run, Hfile, Hparse, Harrow, Hopen, new_syscalls_opened_output.
  repeat split.
  - now destruct c.
  - destruct c; cbn; intros H; try discriminate H; auto.
  - intros [-> | ->]; reflexivity.
  - unfold printed. cbn. apply string_drop_all.
Qed.

(** X5. What a successful run leaves at the output path is determined by
    the input file and the creation time alone: two worlds that agree on
    those end with the same output bytes, whatever else they hold (other
    files, an older output, earlier text on standard output). *)
Theorem output_depends_on_input_only (w v w' v' : world) :
  files w !! input_path = files v !! input_path ->
  now w = now v ->
  generate_parquet w = (Returned tt, w') ->
  generate_parquet v = (Returned tt, v') ->
  files w' !! output_path = files v' !! output_path /\
  is_Some (files w' !! output_path).
Proof.
  intros Hsame Hnow Hw Hv.
  destruct (generate_parquet_returned _ _ Hw) as (tw & dw & Hfw & Hpw & _ & _ & _ & _ & ->).
  destruct (generate_parquet_returned _ _ Hv) as (tv & dv & Hfv & Hpv & _ & _ & _ & _ & ->).
  rewrite Hfw, Hfv in Hsame. injection Hsame as <-.
  rewrite Hpw in Hpv. injection Hpv as <-.
  unfold converted. cbn [files emit store]. rewrite !lookup_insert_eq, Hnow.
  split; [reflexivity | now eexists].
Qed.

End WithEngine.

Import Sample SampleWorlds.


(** The two ways a raising run changes the output: with a full device the
    older output is emptied; with a console that cannot encode the
    confirmation the new output is complete, though the run raised. *)
Example write_fault_empties_output :
  fst (generate_parquet full_disk_world) = Raised (write_error ENOSPC) /\
  files (snd (generate_parquet full_disk_world)) !! output_path = Some [] /\
  files full_disk_world !! output_path = Some stale_output.
Proof. vm_compute. repeat split. Qed.

Example print_fault_after_the_write :
  fst (generate_parquet legacy_console_world) = Raised encode_error /\
  files (snd (generate_parquet legacy_console_world)) !! output_path
    = files abc_converted !! output_path /\
  stdout (snd (generate_parquet legacy_console_world)) = "".
Proof. vm_compute. repeat split. Qed.

Lemma returned_run_went_through_witness :
  files abc_converted !! output_path
    = Some (serialize 0 (from_pandas abc_frame false)) /\
  stdout abc_converted = confirmation +:+ newline.
Proof.
  destruct (returned_run_went_through abc_world abc_converted)
    as (text & df & _ & _ & _ & _ & _ & _ & _ & Hout); [vm_compute; reflexivity |].
  split; [vm_compute; reflexivity | exact Hout].
Defined.

Lemma write_only_after_read_witness :
  new_syscalls abc_world abc_converted =
  [Open input_path ReadMode; Open output_path WriteMode].
Proof.
  destruct (write_only_after_read abc_world (Returned tt) abc_converted) as (_ & Hlog).
  - vm_compute. reflexivity.
  - apply list_elem_of_In. vm_compute. right. left. reflexivity.
  - exact Hlog.
Defined.

Lemma unwritable_output_fails_witness :
  (exists (e : exn) (w' : world),
      generate_parquet locked_world = (Raised e, w') /\
      exn_cls e = PermissionError /\
      files w' !! output_path = Some stale_output) /\
  (exists (e : exn) (w' : world),
      generate_parquet directory_world = (Raised e, w') /\
      exn_cls e = IsADirectoryError /\
      subclass (exn_cls e) OSError = true).
Proof.
  split.
  - destruct (unwritable_output_fails locked_world abc_csv abc_frame EACCES)
      as (e & w' & Hrun & _ & Hcls & _ & _ & _ & Hfiles & _).
    + reflexivity.
    + vm_compute. reflexivity.
    + vm_compute. reflexivity.
    + reflexivity.
    + exists e, w'. rewrite Hfiles. repeat split; assumption || reflexivity.
  - destruct (unwritable_output_fails directory_world abc_csv abc_frame EISDIR)
      as (e & w' & Hrun & _ & Hcls & Hsub & _).
    + reflexivity.
    + vm_compute. reflexivity.
    + vm_compute. reflexivity.
    + reflexivity.
    + exists e, w'. repeat split; assumption.
Defined.

Lemma output_depends_on_input_only_witness :
  files abc_converted !! output_path = files busy_converted !! output_path.
Proof.
  destruct (output_depends_on_input_only abc_world busy_world abc_converted busy_converted)
    as (Hsame & _).
  - reflexivity.
  - reflexivity.
  - vm_compute. reflexivity.
  - vm_compute. reflexivity.
  - exact Hsame.
Defined.

End ConverterMore.


(** ** Further properties of the tool host *)

Module ToolHostMore.

Import ToolHost ToolHostProofs.

Section WithCollaborators.

Context {collaborators : Collaborators}.

(** X6. Whatever [__name__] is and however the body ends, its log is a
    non-empty prefix of: the server import, the two tool imports, the run
    (with the registry the imports left).  So no module is imported twice or
    out of order, nothing is imported after the run, and the server is run at
    most once. *)
Theorem log_is_a_prefix (name : string) (s : interp) :
  exists k : nat,
    1 <= k <= 4 /\
    new_events s (snd (main name s)) =
      take k (map Import tool_modules ++ [Run (registry (snd (imports s)))]) /\
    length (filter (fun ev => is_run ev = true) (new_events s (snd (main name s)))) <= 1.
Proof.
  rewrite main_imports. unfold bind.
  destruct (imports s) as [r s3] eqn:Himp. cbn [snd].
  destruct (imports_cases _ _ _ Himp) as [[-> Hnew] | (e & m & reg & k & -> & Hin & Hraised & Hnew)].
  - destruct (String.eqb name "__main__").
    + exists 4. rewrite mcp_run_run. cbn [snd].
      change (new_events s (absorb (serve (registry s3)) (log_event (Run (registry s3)) s3)))
        with (new_events s (log_event (Run (registry s3)) s3)).
      assert (Hev : events s3 = events s ++ new_events s s3).
      { pose proof (accounted_imports s s (accounted_refl s)) as Hacc.
        rewrite Himp in Hacc. now destruct (accounted_new_events _ _ Hacc). }
      rewrite (new_events_snoc _ _ _ Hev), Hnew.
      repeat split; first [lia | reflexivity | vm_compute; lia].
    + exists 3. cbn [ret snd]. rewrite Hnew. repeat split; first [lia | reflexivity | vm_compute; lia].
  - cbn [snd]. rewrite Hnew.
    assert (Hk : new_events s s3 <> []).
    { pose proof (accounted_imports s s (accounted_refl s)) as Hacc.
      rewrite Himp in Hacc. destruct Hacc as (evs & Hev & _).
      unfold imports, from_import, bind in Himp. rewrite import_module_run in Himp.
      intros Hnil. unfold new_events in Hnil.
      assert (Hlen : length (events s) < length (events s3)).
      { clear Hnil Hnew Hev.
        destruct (raised (load "server" (registry s))).
        - injection Himp as _ <-. cbn. rewrite length_app. cbn. lia.
        - rewrite import_module_run in Himp.
          destruct (raised (load "tools.csv_tools" _)).
          + injection Himp as _ <-. cbn. rewrite !length_app. cbn. lia.
          + rewrite import_module_run in Himp.
            destruct (raised (load "tools.parquet_tools" _));
              injection Himp as _ <-; cbn; rewrite !length_app; cbn; lia. }
      apply (f_equal length) in Hnil. rewrite length_drop in Hnil. cbn in Hnil. lia. }
    rewrite Hnew in Hk.
    destruct k as [| [| [| k]]].
    + now destruct Hk.
    + exists 1. repeat split; first [lia | reflexivity | vm_compute; lia].
    + exists 2. repeat split; first [lia | reflexivity | vm_compute; lia].
    + rewrite (take_ge (map Import tool_modules) (S (S (S k)))) by (cbn; lia).
      exists 3. repeat split; first [lia | reflexivity | vm_compute; lia].
Qed.

(** X7. Running the module as the main program is the same as importing it
    under another name and then calling the server's run: same outcome, same
    registry, same streams, same log. *)
Theorem main_is_import_then_run (name : string) (s : interp) :
  name <> "__main__" ->
  bind (main name) (fun _ => mcp_run) s = main "__main__" s.
Proof.
  intros Hname. apply String.eqb_neq in Hname.
  unfold bind at 1. rewrite (main_imports name), Hname, bind_ret_tt.
  rewrite (main_imports "__main__"). reflexivity.
Qed.

End WithCollaborators.

Import SampleHost.

Lemma main_is_import_then_run_witness :
  bind (@main registering "main") (fun _ => @mcp_run registering) fresh =
  @main registering "__main__" fresh.
Proof. apply (@main_is_import_then_run registering "main" fresh). discriminate. Defined.

End ToolHostMore.
